(** * visual.py: the SME matrix-multiplication performance report

    A shallow embedding of [src/visual.py] and the properties of its
    benchmark tables, its three charts and its export step.

    Modelling conventions.
    - A Python float written as a decimal literal is the rational it
      denotes ([Q]); products and quotients are exact.  Every comparison
      below is between literals with at most two decimals, which round to
      distinct, equally ordered doubles, so order facts carry over.  A
      float is formatted as Python formats the double nearest to the
      rational.  Negative zero and NaN are not rationals: a table of the
      model holds neither.
    - A dict that is only indexed is a [gmap]; a dict that is iterated
      ([.items()]) is an association list in insertion order.
    - A raised exception ([KeyError], [IndexError], [ValueError]) is
      [None].
    - The drawing surface records the calls made on it, in order; keyword
      arguments that only style an artist (line width, alpha, font size,
      z-order, font weight) are not recorded.
    - The properties of the last part hold for the routines applied to
      arbitrary sizes, palettes and tables; there positions are exact
      rationals, and an equality between positions ([==]) holds up to
      rounding in floating point. *)

From Stdlib Require Import QArith Qabs ZArith String List DecimalString Lqa ZifyNat.
From stdpp Require Import gmap strings list fin_maps.

(** ** Python primitives *)

Module Py.

(** [d[k]]: a missing key raises. *)
Definition getitem {V} (d : gmap string V) (k : string) : option V := d !! k.

(** A dict display [{k1: v1, ...}]: entries are stored left to right, a
    repeated key keeps its last value. *)
Definition dict_literal {V} (kvs : list (string * V)) : gmap string V :=
  foldl (fun m kv => <[kv.1 := kv.2]> m) ∅ kvs.

(** [l[i]] with Python's negative indices; out of range raises. *)
Definition index {A} (l : list A) (i : Z) : option A :=
  if (i <? 0)%Z
  then (if (i + Z.of_nat (length l) <? 0)%Z then None
        else l !! Z.to_nat (i + Z.of_nat (length l)))
  else l !! Z.to_nat i.

(** [enumerate(l)]. *)
Definition enumerate {A} (l : list A) : list (nat * A) :=
  imap (fun i a => (i, a)) l.

(** [np.arange(n)], as the numbers 0, 1, ..., n-1. *)
Definition arange (n : nat) : list Q :=
  map (fun k => inject_Z (Z.of_nat k)) (seq 0 n).

(** The common length of two sequences under numpy's broadcasting: they
    have the same length, or one of them has length one and is repeated;
    any other pair raises. *)
Definition broadcast_len (n m : nat) : option nat :=
  if (n =? m)%nat then Some n
  else if (n =? 1)%nat then Some m
  else if (m =? 1)%nat then Some n
  else None.

Definition broadcast {A} (k : nat) (l : list A) : list A :=
  match l with
  | [a] => replicate k a
  | _ => l
  end.

(** The line feed, written as a backslash followed by n in Python. *)
Definition nl : string := String (Ascii.ascii_of_nat 10) EmptyString.

(** [s * n] for a string [s]. *)
Fixpoint str_repeat (s : string) (n : nat) : string :=
  match n with
  | O => EmptyString
  | S n' => String.append s (str_repeat s n')
  end.

(** The format spec [:<w>s]: left-justified in a field of [w] characters. *)
Definition ljust (w : nat) (s : string) : string :=
  String.append s (str_repeat " " (w - String.length s)).

(** The integer nearest to [n / d] for [d > 0], ties to the even one. *)
Definition round_half_even (n d : Z) : Z :=
  let q := (n / d)%Z in
  let r := (n mod d)%Z in
  match (2 * r ?= d)%Z with
  | Lt => q
  | Gt => (q + 1)%Z
  | Eq => if Z.even q then q else (q + 1)%Z
  end.

(** [v] scaled by [10^prec] and rounded to an integer. *)
Definition scaled_round (prec : nat) (v : Q) : Z :=
  round_half_even (Qnum v * 10 ^ Z.of_nat prec) (Zpos (Qden v)).

Definition digits (n : Z) : string :=
  NilZero.string_of_uint (N.to_uint (Z.to_N n)).

(** The exponent [e] with [2^e <= n/d < 2^(e+1)], for positive [n] and [d]. *)
Definition floor_log2 (n d : Z) : Z :=
  let k := (Z.log2 n - Z.log2 d)%Z in
  if (if (0 <=? k)%Z then (d * 2 ^ k <=? n)%Z else (d <=? n * 2 ^ (- k))%Z)
  then k else (k - 1)%Z.

(** The double a decimal literal denotes: the binary64 number nearest to the
    rational, ties to the even mantissa; 53 bits of mantissa, exponents from
    -1074 on (subnormals included).  [None] is an infinity. *)
Definition to_double (v : Q) : option Q :=
  let n := Z.abs (Qnum v) in
  let d := Zpos (Qden v) in
  if (n =? 0)%Z then Some 0%Q else
  let e := Z.max (floor_log2 n d - 52) (-1074) in
  let s := Z.sgn (Qnum v) in
  if (0 <=? e)%Z
  then let m := round_half_even n (d * 2 ^ e) in
       if (2 ^ 1024 <=? m * 2 ^ e)%Z then None
       else Some (inject_Z (s * m * 2 ^ e))
  else let m := round_half_even (n * 2 ^ (- e)) d in
       Some ((s * m) # Z.to_pos (2 ^ (- e))).

(** The format spec [:.<prec>f]: fixed point with [prec] decimals.  Python
    rounds the exact value of the double, half to even, and a negative value
    keeps its sign when it rounds to zero. *)
Definition format_f (prec : nat) (v : Q) : string :=
  let sign := if (Qnum v <? 0)%Z then "-" else "" in
  match to_double v with
  | None => String.append sign "inf"
  | Some d =>
      let a := Z.abs (scaled_round prec d) in
      let p := (10 ^ Z.of_nat prec)%Z in
      let frac := digits (a mod p) in
      String.append sign
        (String.append (digits (a / p))
           (match prec with
            | O => EmptyString
            | _ => String.append "."
                     (String.append (str_repeat "0" (prec - String.length frac)) frac)
            end))
  end.

End Py.

(** ** The benchmark tables *)

(** A measurement table: method name to one value per matrix size. *)
Abbreviation table := (gmap string (list Q)).

Definition load_data : list string * table * table * table :=
  let matrix_sizes := ["64×64×64"; "128×128×128"; "256×256×256"] in
  let time_data := Py.dict_literal
    [ ("cpu",          [453.0; 2985.9; 11554.4]%Q);
      ("sme_cpu_prep", [39.4; 59.6; 140.2]%Q);
      ("sme_sme_prep", [5.1; 18.8; 66.1]%Q);
      ("sme_4tiles",   [5.3; 8.4; 23.0]%Q) ] in
  let speedup_data := Py.dict_literal
    [ ("cpu",          [1.00; 1.00; 1.00]%Q);
      ("sme_cpu_prep", [11.50; 50.10; 82.41]%Q);
      ("sme_sme_prep", [88.82; 158.82; 174.80]%Q);
      ("sme_4tiles",   [85.47; 355.46; 502.37]%Q) ] in
  let gflops_data := Py.dict_literal
    [ ("cpu",          [1.16; 1.40; 2.90]%Q);
      ("sme_cpu_prep", [13.31; 70.37; 239.33]%Q);
      ("sme_sme_prep", [102.80; 223.10; 507.63]%Q);
      ("sme_4tiles",   [98.92; 499.32; 1458.89]%Q) ] in
  (matrix_sizes, time_data, speedup_data, gflops_data).

(** The four components of [load_data]'s result, as [main] unpacks them. *)
Definition matrix_sizes : list string := load_data.1.1.1.
Definition time_data : table := load_data.1.1.2.
Definition speedup_data : table := load_data.1.2.
Definition gflops_data : table := load_data.2.

(** ** Effects: state passing with exceptions *)

(** A computation over a state [S] that returns an [A] or raises. *)
Definition Eff (S A : Type) : Type := S -> option (A * S).

Definition ret {S A} (a : A) : Eff S A := fun s => Some (a, s).

Definition bind {S A B} (m : Eff S A) (k : A -> Eff S B) : Eff S B :=
  fun s => match m s with
           | Some (a, s') => k a s'
           | None => None
           end.

(** An expression that may raise, evaluated without touching the state. *)
Definition eval {S A} (o : option A) : Eff S A :=
  fun s => match o with
           | Some a => Some (a, s)
           | None => None
           end.

Definition modify {S} (f : S -> S) : Eff S unit := fun s => Some (tt, f s).

Declare Scope eff_scope.
Delimit Scope eff_scope with eff.
Notation "'let*' x ':=' m 'in' k" := (bind m (fun x => k))
  (at level 10, x pattern, m at level 100, k at level 200) : eff_scope.
Notation "m '>>' k" := (bind m (fun _ => k))
  (at level 100, k at level 200, right associativity) : eff_scope.

(** [for a in l: body(a)]. *)
Fixpoint for_ {S A} (l : list A) (body : A -> Eff S unit) : Eff S unit :=
  match l with
  | [] => ret tt
  | a :: l' => bind (body a) (fun _ => for_ l' body)
  end.

(** ** The drawing surface *)

Record plot_call := PlotCall {
  p_x : list Q; p_y : list Q; p_marker : string; p_color : string; p_label : string }.

Record bar_call := BarCall {
  b_x : list Q; b_height : list Q; b_width : Q; b_label : string; b_color : string }.

(** [bbox] holds the edge colour of the surrounding box, when there is one. *)
Record text_call := TextCall {
  t_x : Q; t_y : Q; t_s : string; t_ha : string; t_va : string;
  t_color : string; t_bbox : option string }.

Inductive ax_call :=
| Plot (c : plot_call)
| Bar (c : bar_call)
| Text (c : text_call)
| Axhline (y : Q) (color linestyle label : string)
| SetYlabel (s color : string)
| SetXlabel (s color : string)
| SetTitle (s color : string)
| SetYscale (s : string)
| SetYlim (lo hi : Q)
| SetXlim (lo hi : Q)
| SetXticks (ticks : list Q)
| SetXticklabels (labels : list string)
| Legend (loc : string) (ncol : nat) (edgecolor : string)
| Grid (axis which color : string).

(** An axes object: the calls made on it so far, oldest first. *)
Definition Axes : Type := list ax_call.

Definition call (c : ax_call) : Eff Axes unit := modify (fun ax => ax ++ [c]).

(** [ax.plot(x, y, ...)]: a line series; [x] and [y] must have the same
    length, or the call raises ([ValueError]). *)
Definition ax_plot (x y : list Q) (marker color label : string) : Eff Axes unit :=
  if (length x =? length y)%nat
  then call (Plot (PlotCall x y marker color label))
  else eval None.

(** A bar as [ax.bar] returns it: left edge, width and height. *)
Record rectangle := Rectangle { get_x : Q; get_width : Q; get_height : Q }.

(** The bars of [ax.bar(x, height, width)] with the default centre
    alignment: the bar at position [c] spans [c - width/2 .. c + width/2].
    Positions and heights are broadcast against each other; lengths that
    cannot be raise ([ValueError]). *)
Definition bar_rectangles (x height : list Q) (width : Q) : option (list rectangle) :=
  Py.broadcast_len (length x) (length height) ≫= fun k =>
  Some (zip_with (fun c h => Rectangle (c - width / 2) width h)
                 (Py.broadcast k x) (Py.broadcast k height)).

(** [ax.bar(x, height, width, ...)]: the call is made when the bars can be
    formed, and returns them. *)
Definition ax_bar (x height : list Q) (width : Q) (label color : string)
  : Eff Axes (list rectangle) :=
  bind (eval (bar_rectangles x height width)) (fun bars =>
  bind (call (Bar (BarCall x height width label color))) (fun _ => ret bars)).

Definition texts_of (ax : Axes) : list text_call :=
  omap (fun c => match c with Text t => Some t | _ => None end) ax.

(** The y-range asked for last, if any: the arguments of the last
    [set_ylim] call.  It is the range the axes show when both limits are
    valid for the scale (on a logarithmic scale: positive). *)
Definition ylim_of (ax : Axes) : option (Q * Q) :=
  last (omap (fun c => match c with SetYlim lo hi => Some (lo, hi) | _ => None end) ax).

(** ** The three charts *)

Section Charts.
Local Open Scope eff_scope.
Local Open Scope Q_scope.

Variable matrix_sizes : list string.
Variable colors : gmap string string.

Definition create_speedup_plot (speedup_data : table) : Eff Axes unit :=
  let x := Py.arange (length matrix_sizes) in
  let* c_cpu_prep := eval (Py.getitem colors "sme_cpu_prep") in
  let* c_sme_prep := eval (Py.getitem colors "sme_sme_prep") in
  let* c_4tiles := eval (Py.getitem colors "sme_4tiles") in
  let methods :=
    [ ("sme_cpu_prep", ("SME (CPU Transpose + Single Tile)", "o", c_cpu_prep));
      ("sme_sme_prep", ("SME (SME Transpose + Single Tile)", "s", c_sme_prep));
      ("sme_4tiles", ("SME (SME Transpose + 4-Tiles Parallel)", "D", c_4tiles)) ]%string in
  for_ methods (fun '(key, (label, marker, color)) =>
    let* ys := eval (Py.getitem speedup_data key) in
    ax_plot x ys marker color label) >>
  let* vals := eval (Py.getitem speedup_data "sme_4tiles") in
  for_ (Py.enumerate vals) (fun '(i, val) =>
    let y_offset := if negb (i =? 1)%nat then val * 1.10 else val * 1.15 in
    let* xi := eval (x !! i) in
    let* c := eval (Py.getitem colors "sme_4tiles") in
    let* edge := eval (Py.getitem colors "sme_4tiles") in
    call (Text (TextCall xi y_offset (String.append (Py.format_f 1 val) "×")
                  "center" "bottom" c (Some edge)))) >>
  let* c_base := eval (Py.getitem colors "baseline") in
  call (Axhline 1.0 c_base "--" "Baseline (CPU)") >>
  let* c_text := eval (Py.getitem colors "text") in
  call (SetYlabel "Speedup Factor (×)" c_text) >>
  call (SetYlim 0.5 600) >>
  call (SetXlim (-0.3) (inject_Z (Z.of_nat (length matrix_sizes)) - 0.7)) >>
  call (SetXticks x) >>
  call (SetXticklabels matrix_sizes) >>
  let* c_text := eval (Py.getitem colors "text") in
  call (SetXlabel "Matrix Size (M×K×N)" c_text) >>
  let* c_text := eval (Py.getitem colors "text") in
  call (SetTitle "Speedup Factor Analysis" c_text) >>
  let* c_grid := eval (Py.getitem colors "grid") in
  call (Legend "upper left" 1 c_grid) >>
  let* c_grid := eval (Py.getitem colors "grid") in
  call (Grid "both" "major" c_grid).

Definition create_throughput_plot (gflops_data : table) : Eff Axes unit :=
  let x := Py.arange (length matrix_sizes) in
  let bar_width := 0.2 in
  let* c_cpu := eval (Py.getitem colors "cpu") in
  let* c_cpu_prep := eval (Py.getitem colors "sme_cpu_prep") in
  let* c_sme_prep := eval (Py.getitem colors "sme_sme_prep") in
  let* c_4tiles := eval (Py.getitem colors "sme_4tiles") in
  let methods :=
    [ ("cpu", "CPU", c_cpu, -1.5);
      ("sme_cpu_prep", (String.append "CPU Prep" (String.append Py.nl "+ Single")), c_cpu_prep, -0.5);
      ("sme_sme_prep", (String.append "SME Prep" (String.append Py.nl "+ Single")), c_sme_prep, 0.5);
      ("sme_4tiles", (String.append "SME Prep" (String.append Py.nl "+ 4-Tiles")), c_4tiles, 1.5) ]%string in
  for_ methods (fun '(key, label, color, offset) =>
    let* values := eval (Py.getitem gflops_data key) in
    let* bars := ax_bar (map (fun xi => xi + offset * bar_width) x) values bar_width
                        label color in
    if String.eqb key "sme_4tiles" then
      for_ (Py.enumerate (zip bars values)) (fun '(i, (bar, val)) =>
        if (i mod 2 =? 1)%nat then
          let height := get_height bar in
          call (Text (TextCall (get_x bar + get_width bar / 2) (height * 1.05)
                        (Py.format_f 0 val) "center" "bottom" color None))
        else ret tt)
    else ret tt) >>
  let* c_text := eval (Py.getitem colors "text") in
  call (SetYlabel "Throughput (GFLOPS)" c_text) >>
  call (SetYlim 0 1700) >>
  call (SetXticks x) >>
  call (SetXticklabels matrix_sizes) >>
  let* c_text := eval (Py.getitem colors "text") in
  call (SetXlabel "Matrix Size (M×K×N)" c_text) >>
  let* c_text := eval (Py.getitem colors "text") in
  call (SetTitle "Throughput Performance Comparison" c_text) >>
  let* c_grid := eval (Py.getitem colors "grid") in
  call (Legend "upper left" 2 c_grid) >>
  let* c_grid := eval (Py.getitem colors "grid") in
  call (Grid "y" "major" c_grid).

Definition create_execution_time_plot (time_data : table) : Eff Axes unit :=
  let x := Py.arange (length matrix_sizes) in
  let* c_cpu := eval (Py.getitem colors "cpu") in
  let* c_cpu_prep := eval (Py.getitem colors "sme_cpu_prep") in
  let* c_sme_prep := eval (Py.getitem colors "sme_sme_prep") in
  let* c_4tiles := eval (Py.getitem colors "sme_4tiles") in
  let methods :=
    [ ("cpu", ("CPU Baseline", "o", c_cpu));
      ("sme_cpu_prep", ("CPU Prep + Single Tile", "s", c_cpu_prep));
      ("sme_sme_prep", ("SME Prep + Single Tile", "^", c_sme_prep));
      ("sme_4tiles", ("SME Prep + 4-Tiles Parallel", "D", c_4tiles)) ]%string in
  for_ methods (fun '(key, (label, marker, color)) =>
    let* ys := eval (Py.getitem time_data key) in
    ax_plot x ys marker color label) >>
  let* best_vals := eval (Py.getitem time_data "sme_4tiles") in
  for_ [0; -1]%Z (fun i =>
    let* y_offset :=
      (if (i =? 0)%Z
       then let* v := eval (Py.index best_vals i) in ret (v * 0.6)
       else let* v := eval (Py.index best_vals i) in ret (v * 1.5)) in
    let va := (if (i =? 0)%Z then "top" else "bottom")%string in
    let* xi := eval (Py.index x i) in
    let* v := eval (Py.index best_vals i) in
    let* c := eval (Py.getitem colors "sme_4tiles") in
    let* edge := eval (Py.getitem colors "sme_4tiles") in
    call (Text (TextCall xi y_offset (String.append (Py.format_f 1 v) "μs")
                  "center" va c (Some edge)))) >>
  let* c_text := eval (Py.getitem colors "text") in
  call (SetYlabel "Execution Time (μs)" c_text) >>
  call (SetYscale "log") >>
  call (SetYlim 3 20000) >>
  call (SetXlim (-0.3) (inject_Z (Z.of_nat (length matrix_sizes)) - 0.7)) >>
  call (SetXticks x) >>
  call (SetXticklabels matrix_sizes) >>
  let* c_text := eval (Py.getitem colors "text") in
  call (SetXlabel "Matrix Size (M×K×N)" c_text) >>
  let* c_text := eval (Py.getitem colors "text") in
  call (SetTitle "Execution Time Comparison (Log Scale)" c_text) >>
  let* c_grid := eval (Py.getitem colors "grid") in
  call (Legend "upper left" 1 c_grid) >>
  let* c_grid := eval (Py.getitem colors "grid") in
  call (Grid "both" "both" c_grid).

End Charts.

(** ** The process state: console, plotting defaults, figure, files *)

Inductive rc_value :=
| RcStr (s : string)
| RcNum (q : Q)
| RcBool (b : bool)
| RcList (l : list string).

Record figure := Figure {
  fig_size : Q * Q;
  fig_axes : list Axes;                      (* the subplots, in creation order *)
  fig_suptitle : option (string * string);   (* title and its colour *)
  fig_tight_layout : bool;
  fig_adjust : option (Q * Q) }.             (* top and bottom margins *)

(** A file written by [savefig]: the figure as it was at the call and the
    resolution asked for; the format is the one the file name's extension
    names.  The bytes of the file, which carry dates and generated
    identifiers, are not modelled. *)
Record image := Image { img_dpi : option Z; img_figure : figure }.

Record world := World {
  stdout : list string;                      (* one entry per print call, oldest first *)
  rc_style : option string;
  rc_params : gmap string rc_value;
  current_fig : option figure;
  files : gmap string image;                 (* the working directory *)
  writes : list string }.                    (* names of the files written, in order *)

Definition print (line : string) : Eff world unit :=
  modify (fun w => World (stdout w ++ [line]) (rc_style w) (rc_params w)
                         (current_fig w) (files w) (writes w)).

Definition set_current_fig (f : figure) : Eff world unit :=
  modify (fun w => World (stdout w) (rc_style w) (rc_params w)
                         (Some f) (files w) (writes w)).

(** [plt.gcf()]: the current figure, a fresh default one when there is none. *)
Definition gcf : Eff world figure :=
  fun w => match current_fig w with
           | Some f => Some (f, w)
           | None => let f := Figure (6.4, 4.8)%Q [] None false None in
                     set_current_fig f w ≫= fun r => Some (f, r.2)
           end.

(** [plt.figure(figsize=...)]. *)
Definition plt_figure (figsize : Q * Q) : Eff world unit :=
  set_current_fig (Figure figsize [] None false None).

(** [fig.add_subplot(...)]: a new, empty axes; the result is its position
    among the figure's axes, which is how the later calls refer to it. *)
Definition add_subplot : Eff world nat :=
  bind gcf (fun f =>
  bind (set_current_fig (Figure (fig_size f) (fig_axes f ++ [[]]) (fig_suptitle f)
                                (fig_tight_layout f) (fig_adjust f)))
       (fun _ => ret (length (fig_axes f)))).

(** Run a drawing routine on the axes at position [k] of the current figure. *)
Definition on_axes (k : nat) (m : Eff Axes unit) : Eff world unit :=
  bind gcf (fun f =>
  bind (eval (fig_axes f !! k)) (fun ax =>
  bind (eval (m ax)) (fun r =>
  set_current_fig (Figure (fig_size f) (<[k := r.2]> (fig_axes f)) (fig_suptitle f)
                          (fig_tight_layout f) (fig_adjust f))))).

Definition suptitle (s color : string) : Eff world unit :=
  bind gcf (fun f =>
  set_current_fig (Figure (fig_size f) (fig_axes f) (Some (s, color))
                          (fig_tight_layout f) (fig_adjust f))).

Definition tight_layout : Eff world unit :=
  bind gcf (fun f =>
  set_current_fig (Figure (fig_size f) (fig_axes f) (fig_suptitle f) true (fig_adjust f))).

Definition subplots_adjust (top bottom : Q) : Eff world unit :=
  bind gcf (fun f =>
  set_current_fig (Figure (fig_size f) (fig_axes f) (fig_suptitle f)
                          (fig_tight_layout f) (Some (top, bottom)))).

(** [plt.savefig(filename, dpi=...)]: the file of that name in the working
    directory is created, or replaced when it exists. *)
Definition savefig (filename : string) (dpi : option Z) : Eff world unit :=
  bind gcf (fun f =>
  modify (fun w => World (stdout w) (rc_style w) (rc_params w) (current_fig w)
                         (<[filename := Image dpi f]> (files w))
                         (writes w ++ [filename]))).

(** ** The program *)

Section Program.
Local Open Scope eff_scope.

(** [plt.style.use] is recorded by the name of the style sheet; the
    settings the sheet itself makes are data of the library and are not
    modelled.  The thirteen settings of [rcParams.update] are made after the
    sheet is applied, so they hold whatever the sheet sets. *)
Definition setup_plot_style : Eff world (gmap string string) :=
  modify (fun w => World (stdout w) (Some "seaborn-v0_8-whitegrid"%string) (rc_params w)
                         (current_fig w) (files w) (writes w)) >>
  let colors := Py.dict_literal
    [ ("cpu", "#7F7F7F");
      ("sme_cpu_prep", "#045DB7");
      ("sme_sme_prep", "#6A178B");
      ("sme_4tiles", "#B580C5");
      ("grid", "#E8E8E8");
      ("text", "#333333");
      ("baseline", "#7F7F7F") ]%string in
  let* edgecolor := eval (Py.getitem colors "text") in
  modify (fun w => World (stdout w) (rc_style w)
    (Py.dict_literal
       [ ("font.family", RcStr "serif");
         ("font.serif", RcList ["Times New Roman"; "DejaVu Serif"]);
         ("font.size", RcNum 14);
         ("axes.labelsize", RcNum 15);
         ("axes.titlesize", RcNum 16);
         ("xtick.labelsize", RcNum 12);
         ("ytick.labelsize", RcNum 12);
         ("legend.fontsize", RcNum 12);
         ("figure.titlesize", RcNum 18);
         ("axes.linewidth", RcNum 1.5);
         ("axes.edgecolor", RcStr edgecolor);
         ("axes.spines.top", RcBool false);
         ("axes.spines.right", RcBool false) ]%string ∪ rc_params w)
    (current_fig w) (files w) (writes w)) >>
  ret colors.

(** One entry of [output_formats]. *)
Record settings := Settings { dpi : option Z; desc : string }.

Definition main : Eff world unit :=
  print (Py.str_repeat "=" 70) >>
  print "SME Matrix Multiplication Performance Visualization" >>
  print (Py.str_repeat "=" 70) >>
  let* colors := setup_plot_style in
  let '(matrix_sizes, time_data, speedup_data, gflops_data) := load_data in
  plt_figure (18, 6)%Q >>
  let* ax1 := add_subplot in
  let* ax2 := add_subplot in
  let* ax3 := add_subplot in
  print (String.append Py.nl "📊 Generating performance visualizations...") >>
  on_axes ax1 (create_speedup_plot matrix_sizes colors speedup_data) >>
  print "  ✓ Speedup analysis chart created" >>
  on_axes ax2 (create_throughput_plot matrix_sizes colors gflops_data) >>
  print "  ✓ GFLOPS comparison chart created" >>
  on_axes ax3 (create_execution_time_plot matrix_sizes colors time_data) >>
  print "  ✓ Execution time chart created" >>
  let* c_text := eval (Py.getitem colors "text") in
  suptitle "ARM SME Matrix Multiplication Performance Analysis" c_text >>
  tight_layout >>
  subplots_adjust 0.90 0.12 >>
  let output_formats :=
    [ ("png", Settings (Some 300%Z) "GitHub/Web display (300 DPI)");
      ("pdf", Settings None "LaTeX/Papers (vector)");
      ("svg", Settings None "Vector graphics (editable)") ]%string in
  print (String.append Py.nl "💾 Saving visualization files...") >>
  print (Py.str_repeat "-" 70) >>
  for_ output_formats (fun '(fmt, settings) =>
    let filename := String.append "sme_matmul_performance." fmt in
    savefig filename (dpi settings) >>
    print (String.append "  ✓ " (String.append (Py.ljust 35 filename)
                                   (String.append " - " (desc settings))))) >>
  savefig "sme_matmul_performance_hires.png" (Some 600%Z) >>
  print (String.append "  ✓ " (String.append (Py.ljust 35 "sme_matmul_performance_hires.png")
                                 " - Publication quality (600 DPI)")) >>
  print (String.append Py.nl (Py.str_repeat "=" 70)) >>
  print "✅ Visualization Complete!" >>
  print (Py.str_repeat "=" 70).

End Program.

(** The state of a freshly started process in an empty directory. *)
Definition initial_world : world := World [] None ∅ None ∅ [].

(** ** Vocabulary of the properties *)

(** The entry of method [m] at matrix-size position [i]. *)
Definition value (t : table) (m : string) (i : nat) : option Q :=
  t !! m ≫= fun vs => vs !! i.

(** [round(v, ndigits)]: the nearest multiple of [10^-ndigits], ties to even. *)
Definition py_round (v : Q) (ndigits : nat) : Q :=
  Py.scaled_round ndigits v # Z.to_pos (10 ^ Z.of_nat ndigits).

(** The methods of the tables, baseline first. *)
Definition baseline : string := "cpu".
Definition variants : list string := ["sme_cpu_prep"; "sme_sme_prep"; "sme_4tiles"].
Definition method_keys : gset string :=
  {[ "cpu"; "sme_cpu_prep"; "sme_sme_prep"; "sme_4tiles" ]}.

(** [best] is at most every method of [others] at position [i]. *)
Definition no_greater_than (t : table) (best : string) (others : list string) (i : nat) : Prop :=
  ∃ b, value t best i = Some b ∧
       ∀ m, m ∈ others → ∃ v, value t m i = Some v ∧ (b <= v)%Q.

(** [best] attains the largest entry of the table at position [i]. *)
Definition is_max_at (t : table) (best : string) (i : nat) : Prop :=
  ∃ b, value t best i = Some b ∧
       ∀ m v, value t m i = Some v → (v <= b)%Q.

(** [best] attains the smallest entry of the table at position [i]. *)
Definition is_min_at (t : table) (best : string) (i : nat) : Prop :=
  ∃ b, value t best i = Some b ∧
       ∀ m v, value t m i = Some v → (b <= v)%Q.

Fixpoint strictly_increasing (l : list Q) : Prop :=
  match l with
  | a :: l' => match l' with
               | b :: _ => (a < b)%Q ∧ strictly_increasing l'
               | [] => True
               end
  | [] => True
  end.

(** Every entry of the table lies in [[lo, hi]]. *)
Definition within (lo hi : Q) (t : table) : Prop :=
  map_Forall (fun _ vs => Forall (fun v => (lo <= v)%Q ∧ (v <= hi)%Q) vs) t.

Definition digit_of (c : Ascii.ascii) : option Z :=
  let n := Z.of_nat (Ascii.nat_of_ascii c) in
  if ((48 <=? n) && (n <=? 57))%Z then Some (n - 48)%Z else None.

Fixpoint leading_int_from (acc : option Z) (s : string) : option Z :=
  match s with
  | String c s' =>
      match digit_of c with
      | Some d => leading_int_from (Some (10 * default 0 acc + d)%Z) s'
      | None => acc
      end
  | EmptyString => acc
  end.

(** The number a matrix-size label starts with: 64 for the label of 64×64×64. *)
Definition leading_int (s : string) : option Z := leading_int_from None s.

(** The rate, in GFLOPS, of an n×n×n multiply ([2 n^3] operations) that
    takes [t] microseconds. *)
Definition flop_rate (n : Z) (t : Q) : Q :=
  ((2 * inject_Z (n ^ 3) / t) / 1000)%Q.

(** The same, to two decimals. *)
Definition gflops_of (n : Z) (t : Q) : Q := py_round (flop_rate n t) 2.

(** The table obtained from the time table by applying [f] to the matrix
    dimension and the time of every entry. *)
Definition table_of (f : Z -> Q -> Q) (dims : list Z) (times : table) : table :=
  (fun ts => zip_with f dims ts) <$> times.

(** Speedup of a run of [t] microseconds over a baseline of [c], to two decimals. *)
Definition speedup_of (c t : Q) : Q := py_round (c / t)%Q 2.

(** Tables with the same keys whose rows are related entry by entry. *)
Definition table_rel (R : Q -> Q -> Prop) (a b : table) : Prop :=
  ∀ m, option_Forall2 (Forall2 R) (a !! m) (b !! m).

(** [g] is within half a unit of the second decimal of [x], strictly: the
    two-decimal rounding of [x] is [g] whatever the tie-breaking rule. *)
Definition rounds_to (g x : Q) : Prop := (Qabs (g - x) < 0.005)%Q.

(** The text after the last dot of a file name. *)
Fixpoint extension (s : string) : option string :=
  match s with
  | EmptyString => None
  | String c s' =>
      match extension s' with
      | Some e => Some e
      | None => if Ascii.eqb c (Ascii.ascii_of_nat 46) then Some s' else None
      end
  end.

Inductive image_kind := Raster | Vector.

(** What [savefig] writes for a file name, by its extension. *)
Definition kind_of (filename : string) : option image_kind :=
  match extension filename with
  | Some e => if String.eqb e "png" then Some Raster
              else if String.eqb e "pdf" || String.eqb e "svg" then Some Vector
              else None
  | None => None
  end.

(** The drawing routine only adds calls to the surface it is given. *)
Definition appends {A} (m : Eff Axes A) : Prop :=
  ∀ ax, m ax = (fun r => (r.1, ax ++ r.2)) <$> m [].

(** The last binding of [k] in an association list. *)
Definition assoc_last {V} (k : string) (kvs : list (string * V)) : option V :=
  foldl (fun acc kv => if decide (kv.1 = k) then Some kv.2 else acc) None kvs.

(** The row of [m] exists and grows with the matrix size. *)
Definition row_increasing (t : table) (m : string) : Prop :=
  ∃ vs, t !! m = Some vs ∧ strictly_increasing vs.

(** The palette, as [setup_plot_style] returns it. *)
Definition palette : gmap string string :=
  default ∅ (fst <$> setup_plot_style initial_world).

(** The calls each chart routine makes for the tables of [load_data]. *)
Definition speedup_calls : list ax_call :=
  default [] (snd <$> create_speedup_plot matrix_sizes palette speedup_data []).
Definition throughput_calls : list ax_call :=
  default [] (snd <$> create_throughput_plot matrix_sizes palette gflops_data []).
Definition execution_time_calls : list ax_call :=
  default [] (snd <$> create_execution_time_plot matrix_sizes palette time_data []).


(** The figure [main] composes: three charts side by side under a title. *)
Definition final_figure : figure :=
  Figure (18, 6)%Q [speedup_calls; throughput_calls; execution_time_calls]
         (Some ("ARM SME Matrix Multiplication Performance Analysis", "#333333"))
         true (Some (0.90, 0.12)%Q).

(** The output files and their resolutions, in the order they are listed. *)
Definition outputs : list (string * option Z) :=
  [ ("sme_matmul_performance.png", Some 300%Z);
    ("sme_matmul_performance.pdf", None);
    ("sme_matmul_performance.svg", None);
    ("sme_matmul_performance_hires.png", Some 600%Z) ].

(** Writing the files of [outs] one after the other into a directory. *)
Definition write_all (f : figure) (outs : list (string * option Z))
                     (dir : gmap string image) : gmap string image :=
  foldl (fun d out => <[out.1 := Image out.2 f]> d) dir outs.

(** The dimensions of the three matrix sizes. *)
Definition dims : list Z := [64; 128; 256]%Z.

(** ** Vocabulary of the properties that hold for every input *)


(** Every key of [keys] is bound in the dict. *)
Definition has_keys {V} (keys : list string) (d : gmap string V) : Prop :=
  Forall (fun k => is_Some (d !! k)) keys.

(** Every key of [keys] has a row in [t] with one entry per matrix size. *)
Definition rows_for (sizes : list string) (keys : list string) (t : table) : Prop :=
  Forall (fun k => ∃ vs, t !! k = Some vs ∧ length vs = length sizes) keys.

(** Two dicts hold the same under every key of [keys]. *)
Definition agree_on {V} (keys : list string) (a b : gmap string V) : Prop :=
  Forall (fun k => a !! k = b !! k) keys.

(** The palette entries [create_speedup_plot] indexes, and those the two
    other chart routines index. *)
Definition speedup_palette_keys : list string :=
  ["sme_cpu_prep"; "sme_sme_prep"; "sme_4tiles"; "baseline"; "text"; "grid"].
Definition method_palette_keys : list string :=
  ["cpu"; "sme_cpu_prep"; "sme_sme_prep"; "sme_4tiles"; "text"; "grid"].

(** The four methods, in the order the charts draw them. *)
Definition methods : list string := baseline :: variants.










(** The settings [setup_plot_style] makes in a fresh process. *)
Definition style_settings : gmap string rc_value :=
  default ∅ ((fun r => rc_params r.2) <$> setup_plot_style initial_world).

(** The console output of [main], one entry per [print] call: the entries
    before the files are saved, one entry per saved file, and the closing
    entries. *)
Definition report_header : list string :=
  [ Py.str_repeat "=" 70;
    "SME Matrix Multiplication Performance Visualization";
    Py.str_repeat "=" 70;
    String.append Py.nl "📊 Generating performance visualizations...";
    "  ✓ Speedup analysis chart created";
    "  ✓ GFLOPS comparison chart created";
    "  ✓ Execution time chart created";
    String.append Py.nl "💾 Saving visualization files...";
    Py.str_repeat "-" 70 ]%string.

Definition report_line (name description : string) : string :=
  String.append "  ✓ " (String.append (Py.ljust 35 name) (String.append " - " description)).

Definition descriptions : list string :=
  [ "GitHub/Web display (300 DPI)"; "LaTeX/Papers (vector)";
    "Vector graphics (editable)"; "Publication quality (600 DPI)" ]%string.

Definition report_footer : list string :=
  [ String.append Py.nl (Py.str_repeat "=" 70);
    "✅ Visualization Complete!";
    Py.str_repeat "=" 70 ]%string.

Definition console_report : list string :=
  report_header ++ zip_with report_line outputs.*1 descriptions ++ report_footer.

(** The lines one console entry shows: [print] ends the entry with a line
    feed, and every line feed inside the entry starts a new line. *)
Fixpoint lines_of (s : string) : list string :=
  match s with
  | EmptyString => [EmptyString]
  | String c s' =>
      if Ascii.eqb c (Ascii.ascii_of_nat 10) then EmptyString :: lines_of s'
      else match lines_of s' with
           | l :: ls => String c l :: ls
           | [] => [String c EmptyString]
           end
  end.

(** A process that has printed before, in a directory that holds a file of
    another name and an older file under one of the output names. *)
Definition cluttered_world : world :=
  World ["earlier output"%string] None ∅ None
        {[ "notes.txt"%string := Image None (Figure (1, 1)%Q [] None false None);
           "sme_matmul_performance.pdf"%string
             := Image (Some 72%Z) (Figure (1, 1)%Q [] None false None) ]}
        ["notes.txt"%string].

(** * Properties *)

(** ** Python primitives on small inputs *)

Example format_f_one_decimal : Py.format_f 1 85.47%Q = "85.5"%string.
Proof. vm_compute. reflexivity. Qed.

Example format_f_no_decimal : Py.format_f 0 499.32%Q = "499"%string.
Proof. vm_compute. reflexivity. Qed.

Example format_f_pads_zeros : Py.format_f 2 3.004%Q = "3.00"%string.
Proof. vm_compute. reflexivity. Qed.

Example format_f_tie_to_even : Py.format_f 1 0.25%Q = "0.2"%string.
Proof. vm_compute. reflexivity. Qed.

Example format_f_rounds_the_double : Py.format_f 1 0.35%Q = "0.3"%string.
Proof. vm_compute. reflexivity. Qed.

Example format_f_rounds_the_double_up : Py.format_f 1 0.05%Q = "0.1"%string.
Proof. vm_compute. reflexivity. Qed.

Example format_f_keeps_the_sign : Py.format_f 1 (-0.04)%Q = "-0.0"%string.
Proof. vm_compute. reflexivity. Qed.

Example format_f_keeps_the_sign_no_decimal : Py.format_f 0 (-0.4)%Q = "-0"%string.
Proof. vm_compute. reflexivity. Qed.

Example format_f_tie_of_a_double : Py.format_f 0 2.5%Q = "2"%string.
Proof. vm_compute. reflexivity. Qed.

Example format_f_large : Py.format_f 0 (inject_Z (10 ^ 23)) = "99999999999999991611392"%string.
Proof. vm_compute. reflexivity. Qed.

Example format_f_overflow : Py.format_f 1 (inject_Z (10 ^ 309)) = "inf"%string.
Proof. vm_compute. reflexivity. Qed.

Example lines_of_leading_feed :
  lines_of (String.append Py.nl "ab") = [""; "ab"]%string.
Proof. reflexivity. Qed.

Example index_negative : Py.index [1; 2; 3]%Z (-1) = Some 3%Z.
Proof. reflexivity. Qed.

Example index_out_of_range : Py.index [1; 2; 3]%Z (-4) = None.
Proof. reflexivity. Qed.

Example ljust_pads : Py.ljust 5 "ab" = "ab   "%string.
Proof. reflexivity. Qed.

Example leading_int_label : leading_int "128×128×128" = Some 128%Z.
Proof. vm_compute. reflexivity. Qed.

Example extension_last_dot : extension "a.b.png" = Some "png"%string.
Proof. vm_compute. reflexivity. Qed.

(** ** Dict displays *)

Lemma dict_literal_snoc {V} (kvs : list (string * V)) k v :
  Py.dict_literal (kvs ++ [(k, v)]) = <[k := v]> (Py.dict_literal kvs).
Proof. unfold Py.dict_literal. by rewrite foldl_app. Qed.

Lemma dict_literal_lookup {V} (kvs : list (string * V)) k :
  Py.dict_literal kvs !! k = assoc_last k kvs.
Proof.
  induction kvs as [|[k' v] kvs IH] using rev_ind.
  - apply lookup_empty.
  - rewrite dict_literal_snoc. unfold assoc_last. rewrite foldl_app. simpl.
    fold (assoc_last k kvs). rewrite lookup_insert. rewrite IH.
    destruct (decide (k' = k)); reflexivity.
Qed.

(** ** Drawing routines only append *)

Lemma appends_ret {A} (a : A) : appends (ret a).
Proof. intros ax. simpl. by rewrite app_nil_r. Qed.

Lemma appends_eval {A} (o : option A) : appends (eval o).
Proof. intros ax. destruct o; simpl; [by rewrite app_nil_r | done]. Qed.

Lemma appends_call c : appends (call c).
Proof. intros ax. reflexivity. Qed.

Lemma appends_bind {A B} (m : Eff Axes A) (k : A → Eff Axes B) :
  appends m → (∀ a, appends (k a)) → appends (bind m k).
Proof.
  intros Hm Hk ax. unfold bind. rewrite (Hm ax).
  destruct (m []) as [[a l]|]; simpl; [|done].
  rewrite (Hk a (ax ++ l)), (Hk a l).
  destruct (k a []) as [[b l']|]; simpl; [|done].
  by rewrite app_assoc.
Qed.

Lemma appends_for {A} (l : list A) (body : A → Eff Axes unit) :
  (∀ a, appends (body a)) → appends (for_ l body).
Proof.
  intros Hb. induction l as [|a l IH]; simpl.
  - apply appends_ret.
  - apply appends_bind; [apply Hb | intros _; apply IH].
Qed.

Lemma appends_ax_bar x height width label color :
  appends (ax_bar x height width label color).
Proof.
  unfold ax_bar. apply appends_bind; [apply appends_eval | intros bars].
  apply appends_bind; [apply appends_call | intros _; apply appends_ret].
Qed.

Lemma appends_ax_plot x y marker color label :
  appends (ax_plot x y marker color label).
Proof.
  unfold ax_plot. destruct (length x =? length y)%nat;
    [apply appends_call | apply appends_eval].
Qed.

Ltac appends_step :=
  first
    [ apply appends_ret
    | apply appends_eval
    | apply appends_call
    | apply appends_ax_plot
    | apply appends_ax_bar
    | apply appends_bind; [|intros ?]
    | apply appends_for; intros ?
    | match goal with
      | |- appends (let '(_, _) := ?p in _) => destruct p
      | |- appends (if ?b then _ else _) => destruct b
      end ].

Lemma create_speedup_plot_appends sizes colors data :
  appends (create_speedup_plot sizes colors data).
Proof. unfold create_speedup_plot. repeat appends_step. Qed.

Lemma create_throughput_plot_appends sizes colors data :
  appends (create_throughput_plot sizes colors data).
Proof. unfold create_throughput_plot. repeat appends_step. Qed.

Lemma create_execution_time_plot_appends sizes colors data :
  appends (create_execution_time_plot sizes colors data).
Proof. unfold create_execution_time_plot. repeat appends_step. Qed.

(** ** The rows of the tables *)

Lemma table_rows {V} (kvs : list (string * V)) m vs :
  Py.dict_literal kvs !! m = Some vs → (m, vs) ∈ kvs.
Proof.
  rewrite dict_literal_lookup. unfold assoc_last.
  induction kvs as [|[k v] kvs IH] using rev_ind; [done|].
  rewrite foldl_app. simpl. destruct (decide (k = m)) as [->|].
  - intros [= ->]. apply elem_of_app. right. apply list_elem_of_singleton. done.
  - intros H. apply elem_of_app. left. by apply IH.
Qed.

(** Replace a lookup hypothesis on one of the tables by its possible rows. *)
Ltac rows H :=
  apply table_rows in H;
  repeat (apply elem_of_cons in H as [H|H]; [injection H as -> ->|]);
  [..|by apply elem_of_nil in H].

(** ** The benchmark tables *)

(** C8: the three tables returned by [load_data] have the same four method
    keys, and every row of every table has one entry per matrix-size label,
    that is three. *)
Theorem tables_share_keys_and_lengths :
  dom time_data = method_keys ∧
  dom speedup_data = method_keys ∧
  dom gflops_data = method_keys ∧
  size method_keys = 4 ∧
  length matrix_sizes = 3 ∧
  map_Forall (fun _ vs => length vs = length matrix_sizes) time_data ∧
  map_Forall (fun _ vs => length vs = length matrix_sizes) speedup_data ∧
  map_Forall (fun _ vs => length vs = length matrix_sizes) gflops_data.
Proof.
  repeat split; try (vm_compute; reflexivity);
    intros m vs H; rows H; reflexivity.
Qed.

Ltac qcmp := vm_compute; first [reflexivity | discriminate | congruence].

(** C1, amended: at every matrix size the time of sme_4tiles is at most that
    of cpu and of sme_cpu_prep; from the second size on it is also at most
    that of sme_sme_prep, while at the first size (64) sme_sme_prep is
    strictly faster. *)
Theorem sme_4tiles_time_ranking (i : nat) :
  (i < length matrix_sizes)%nat →
  no_greater_than time_data "sme_4tiles" ["cpu"; "sme_cpu_prep"] i ∧
  ((1 ≤ i)%nat → no_greater_than time_data "sme_4tiles" ["sme_sme_prep"] i) ∧
  (i = 0%nat → ∃ b v, value time_data "sme_4tiles" i = Some b ∧
                      value time_data "sme_sme_prep" i = Some v ∧ (v < b)%Q).
Proof.
  change (length matrix_sizes) with 3%nat. intros Hi.
  assert (i = 0 ∨ i = 1 ∨ i = 2)%nat as [-> | [-> | ->]] by lia.
  all: split; [|split].
  all: try (intros ?; exfalso; lia).
  all: try (intros _).
  all: try (eexists; split; [vm_compute; reflexivity|];
            intros m Hm; repeat (apply elem_of_cons in Hm as [-> | Hm]);
            [..|by apply elem_of_nil in Hm];
            eexists; (split; [vm_compute; reflexivity|qcmp])).
  do 2 eexists. split; [vm_compute; reflexivity|]. split; [vm_compute; reflexivity|qcmp].
Qed.

Lemma sme_4tiles_time_ranking_witness :
  (1 < length matrix_sizes)%nat ∧
  no_greater_than time_data "sme_4tiles" ["cpu"; "sme_cpu_prep"] 1 ∧
  no_greater_than time_data "sme_4tiles" ["sme_sme_prep"] 1.
Proof.
  assert (1 < length matrix_sizes)%nat as H by (vm_compute; lia).
  split; [exact H|].
  destruct (sme_4tiles_time_ranking 1 H) as (A & B & _).
  split; [exact A | apply B; lia].
Defined.

(** C1 as stated fails: at the first matrix size the time of sme_4tiles
    (5.3) exceeds that of sme_sme_prep (5.1). *)
Lemma sme_4tiles_not_fastest_at_64 :
  ¬ (∀ i, (i < length matrix_sizes)%nat →
          no_greater_than time_data "sme_4tiles" ["cpu"; "sme_cpu_prep"; "sme_sme_prep"] i).
Proof.
  intros H. destruct (H 0%nat) as (b & Hb & Hall); [vm_compute; lia|].
  destruct (Hall "sme_sme_prep") as (v & Hv & Hle).
  { do 2 apply list_elem_of_further. apply list_elem_of_here. }
  vm_compute in Hb, Hv. injection Hb as <-. injection Hv as <-.
  vm_compute in Hle. apply Hle. reflexivity.
Qed.

(** C10: the rows of cpu, sme_cpu_prep, sme_sme_prep and sme_4tiles in the
    time table and in the throughput table, and the rows of the three
    non-baseline methods in the speedup table, each hold three values, of
    which the second (128) exceeds the first (64) and the third (256) the
    second; the two first tables have no other row. *)
Theorem rows_strictly_increasing :
  Forall (fun m => ∃ a b c, time_data !! m = Some [a; b; c] ∧ (a < b)%Q ∧ (b < c)%Q)
         ["cpu"; "sme_cpu_prep"; "sme_sme_prep"; "sme_4tiles"] ∧
  Forall (fun m => ∃ a b c, gflops_data !! m = Some [a; b; c] ∧ (a < b)%Q ∧ (b < c)%Q)
         ["cpu"; "sme_cpu_prep"; "sme_sme_prep"; "sme_4tiles"] ∧
  Forall (fun m => ∃ a b c, speedup_data !! m = Some [a; b; c] ∧ (a < b)%Q ∧ (b < c)%Q)
         ["sme_cpu_prep"; "sme_sme_prep"; "sme_4tiles"] ∧
  length matrix_sizes = 3%nat ∧
  map_Forall (fun _ vs => strictly_increasing vs) time_data ∧
  map_Forall (fun _ vs => strictly_increasing vs) gflops_data ∧
  Forall (row_increasing speedup_data) variants.
Proof.
  split; [repeat constructor; do 3 eexists;
          (split; [vm_compute; reflexivity | split; qcmp])|].
  split; [repeat constructor; do 3 eexists;
          (split; [vm_compute; reflexivity | split; qcmp])|].
  split; [repeat constructor; do 3 eexists;
          (split; [vm_compute; reflexivity | split; qcmp])|].
  split; [reflexivity|].
  split; [|split].
  - intros m vs H. rows H; repeat split; qcmp.
  - intros m vs H. rows H; repeat split; qcmp.
  - repeat constructor; (eexists; split; [vm_compute; reflexivity|]);
      repeat split; qcmp.
Qed.

(** ** The charts *)

Lemma texts_of_app ax l : texts_of (ax ++ l) = texts_of ax ++ texts_of l.
Proof. apply omap_app. Qed.


Lemma ylim_of_app ax l r : ylim_of l = Some r → ylim_of (ax ++ l) = Some r.
Proof. unfold ylim_of. intros H. by rewrite omap_app, last_app, H. Qed.

Lemma setup_plot_style_returns_palette w :
  fst <$> setup_plot_style w = Some palette.
Proof. reflexivity. Qed.

Lemma create_speedup_plot_run ax :
  create_speedup_plot matrix_sizes palette speedup_data ax = Some (tt, ax ++ speedup_calls).
Proof.
  rewrite create_speedup_plot_appends.
  assert (create_speedup_plot matrix_sizes palette speedup_data [] = Some (tt, speedup_calls))
    as -> by (vm_compute; reflexivity).
  reflexivity.
Qed.

Lemma create_throughput_plot_run ax :
  create_throughput_plot matrix_sizes palette gflops_data ax = Some (tt, ax ++ throughput_calls).
Proof.
  rewrite create_throughput_plot_appends.
  assert (create_throughput_plot matrix_sizes palette gflops_data [] = Some (tt, throughput_calls))
    as -> by (vm_compute; reflexivity).
  reflexivity.
Qed.

Lemma create_execution_time_plot_run ax :
  create_execution_time_plot matrix_sizes palette time_data ax
  = Some (tt, ax ++ execution_time_calls).
Proof.
  rewrite create_execution_time_plot_appends.
  assert (create_execution_time_plot matrix_sizes palette time_data []
          = Some (tt, execution_time_calls)) as -> by (vm_compute; reflexivity).
  reflexivity.
Qed.

Ltac in_range := repeat constructor; qcmp.

(** C9: each chart sets the y-range the claim names, and every value of the
    table it plots lies in that range: speedups in [0.5, 600], throughputs
    in [0, 1700], execution times in [3, 20000]. *)
Theorem plotted_values_within_axis_ranges (ax1 ax2 ax3 : Axes) :
  ∃ ax1' ax2' ax3',
    create_speedup_plot matrix_sizes palette speedup_data ax1 = Some (tt, ax1') ∧
    ylim_of ax1' = Some (0.5, 600)%Q ∧ within 0.5 600 speedup_data ∧
    create_throughput_plot matrix_sizes palette gflops_data ax2 = Some (tt, ax2') ∧
    ylim_of ax2' = Some (0, 1700)%Q ∧ within 0 1700 gflops_data ∧
    create_execution_time_plot matrix_sizes palette time_data ax3 = Some (tt, ax3') ∧
    ylim_of ax3' = Some (3, 20000)%Q ∧ within 3 20000 time_data.
Proof.
  do 3 eexists.
  split; [apply create_speedup_plot_run|].
  split; [apply ylim_of_app; vm_compute; reflexivity|].
  split; [intros m vs H; rows H; in_range|].
  split; [apply create_throughput_plot_run|].
  split; [apply ylim_of_app; vm_compute; reflexivity|].
  split; [intros m vs H; rows H; in_range|].
  split; [apply create_execution_time_plot_run|].
  split; [apply ylim_of_app; vm_compute; reflexivity|].
  intros m vs H; rows H; in_range.
Qed.

(** C3 as stated fails: the annotated series is that of sme_4tiles, and at
    the first matrix size its speedup (85.47) is below that of sme_sme_prep
    (88.82), so it is not the maximum at every size. *)
Lemma speedup_annotated_series_not_max_at_64 :
  ¬ (∀ i, (i < length matrix_sizes)%nat → is_max_at speedup_data "sme_4tiles" i).
Proof.
  intros H. destruct (H 0%nat) as (b & Hb & Hmax); [vm_compute; lia|].
  vm_compute in Hb. injection Hb as <-.
  assert (value speedup_data "sme_sme_prep" 0 = Some 88.82%Q) as Hv
    by (vm_compute; reflexivity).
  apply Hmax in Hv. vm_compute in Hv. apply Hv. reflexivity.
Qed.

(** No method has the largest speedup at every matrix size, so the failure
    does not depend on which series is taken to be the annotated one. *)
Lemma no_series_max_at_every_size key :
  ¬ (∀ i, (i < length matrix_sizes)%nat → is_max_at speedup_data key i).
Proof.
  intros H.
  destruct (H 0%nat) as (b0 & Hb0 & Hmax0); [vm_compute; lia|].
  destruct (H 1%nat) as (b1 & Hb1 & Hmax1); [vm_compute; lia|].
  assert (value speedup_data "sme_sme_prep" 0 = Some 88.82%Q) as Hv0
    by (vm_compute; reflexivity).
  assert (value speedup_data "sme_4tiles" 1 = Some 355.46%Q) as Hv1
    by (vm_compute; reflexivity).
  apply Hmax0 in Hv0. apply Hmax1 in Hv1.
  unfold value in Hb0, Hb1.
  destruct (speedup_data !! key) as [vs|] eqn:Hk; [|discriminate].
  rows Hk; simpl in Hb0, Hb1;
    injection Hb0 as <-; injection Hb1 as <-;
    first [ vm_compute in Hv0; apply Hv0; reflexivity
          | vm_compute in Hv1; apply Hv1; reflexivity ].
Qed.

(** C3, amended: the speedup chart adds exactly three texts, one per point
    of the sme_4tiles series, each the value to one decimal followed by the
    multiplication sign, in a box edged in the series colour, placed above
    the point; that series has the largest speedup of all methods at the
    second and third matrix sizes, and at the first size sme_sme_prep is
    larger. *)
Theorem speedup_chart_annotations (ax : Axes) :
  ∃ ax' vals c,
    create_speedup_plot matrix_sizes palette speedup_data ax = Some (tt, ax') ∧
    speedup_data !! "sme_4tiles" = Some vals ∧
    length vals = 3%nat ∧
    palette !! "sme_4tiles" = Some c ∧
    texts_of ax' = texts_of ax ++
      imap (fun i v => TextCall (inject_Z (Z.of_nat i))
                         (if negb (i =? 1)%nat then v * 1.10 else v * 1.15)%Q
                         (String.append (Py.format_f 1 v) "×")
                         "center" "bottom" c (Some c)) vals ∧
    t_s <$> texts_of speedup_calls = ["85.5×"; "355.5×"; "502.4×"] ∧
    Forall2 (fun t v => (v < t_y t)%Q) (texts_of speedup_calls) vals ∧
    Forall (is_max_at speedup_data "sme_4tiles") [1; 2]%nat ∧
    (∃ b v, value speedup_data "sme_4tiles" 0 = Some b ∧
            value speedup_data "sme_sme_prep" 0 = Some v ∧ (b < v)%Q).
Proof.
  exists (ax ++ speedup_calls), [85.47; 355.46; 502.37]%Q, "#B580C5"%string.
  split; [apply create_speedup_plot_run|].
  split; [vm_compute; reflexivity|].
  split; [reflexivity|].
  split; [vm_compute; reflexivity|].
  split; [rewrite texts_of_app; f_equal; vm_compute; reflexivity|].
  split; [vm_compute; reflexivity|].
  split; [repeat constructor; qcmp|].
  split.
  - repeat constructor;
      (eexists; split; [vm_compute; reflexivity|]);
      intros m v Hv; unfold value in Hv;
      destruct (speedup_data !! m) as [vs|] eqn:Hm; try discriminate;
      rows Hm; simpl in Hv; injection Hv as <-; qcmp.
  - do 2 eexists. split; [vm_compute; reflexivity|].
    split; [vm_compute; reflexivity|qcmp].
Qed.

(** C5 as stated fails: the annotated points are the first and the last of
    the sme_4tiles series, and at the first matrix size its time (5.3) is
    above that of sme_sme_prep (5.1), so the annotated points are not all
    points of the fastest method. *)
Lemma execution_time_annotated_points_not_all_fastest :
  ¬ Forall (is_min_at time_data "sme_4tiles") [0; 2]%nat.
Proof.
  intros H. apply Forall_cons in H as [(b & Hb & Hmin) _].
  vm_compute in Hb. injection Hb as <-.
  assert (value time_data "sme_sme_prep" 0 = Some 5.1%Q) as Hv
    by (vm_compute; reflexivity).
  apply Hmin in Hv. vm_compute in Hv. apply Hv. reflexivity.
Qed.

(** No method is the fastest both at the first and at the last matrix size,
    so the failure does not depend on which series is taken to be the
    annotated one. *)
Lemma no_series_fastest_at_both_ends key :
  ¬ Forall (is_min_at time_data key) [0; 2]%nat.
Proof.
  intros H. apply Forall_cons in H as [(b0 & Hb0 & Hmin0) H].
  apply Forall_cons in H as [(b2 & Hb2 & Hmin2) _].
  assert (value time_data "sme_sme_prep" 0 = Some 5.1%Q) as Hv0
    by (vm_compute; reflexivity).
  assert (value time_data "sme_4tiles" 2 = Some 23.0%Q) as Hv2
    by (vm_compute; reflexivity).
  apply Hmin0 in Hv0. apply Hmin2 in Hv2.
  unfold value in Hb0, Hb2.
  destruct (time_data !! key) as [vs|] eqn:Hk; [|discriminate].
  rows Hk; simpl in Hb0, Hb2;
    injection Hb0 as <-; injection Hb2 as <-;
    first [ vm_compute in Hv0; apply Hv0; reflexivity
          | vm_compute in Hv2; apply Hv2; reflexivity ].
Qed.

(** C5, amended: the execution-time chart adds exactly two texts, on the
    first and on the last point of the sme_4tiles series: the time to one
    decimal followed by the microsecond unit, the first hanging below its
    point and the last standing above it.  That series has the least time of
    all methods at the second and at the third (last) matrix size; at the
    first size sme_sme_prep (5.1) is faster than the annotated sme_4tiles
    (5.3). *)
Theorem execution_time_chart_annotations (ax : Axes) :
  ∃ ax' vals first final c,
    create_execution_time_plot matrix_sizes palette time_data ax = Some (tt, ax') ∧
    time_data !! "sme_4tiles" = Some vals ∧
    length vals = 3%nat ∧
    vals !! 0%nat = Some first ∧ last vals = Some final ∧
    palette !! "sme_4tiles" = Some c ∧
    texts_of ax' = texts_of ax ++
      [ TextCall 0 (first * 0.6)%Q (String.append (Py.format_f 1 first) "μs")
                 "center" "top" c (Some c);
        TextCall (inject_Z (Z.of_nat (length vals - 1))) (final * 1.5)%Q
                 (String.append (Py.format_f 1 final) "μs")
                 "center" "bottom" c (Some c) ] ∧
    t_s <$> texts_of execution_time_calls = ["5.3μs"; "23.0μs"] ∧
    (first * 0.6 < first)%Q ∧ (final < final * 1.5)%Q ∧
    Forall (is_min_at time_data "sme_4tiles") [1; 2]%nat ∧
    (∃ b v, value time_data "sme_4tiles" 0 = Some b ∧
            value time_data "sme_sme_prep" 0 = Some v ∧ (v < b)%Q).
Proof.
  exists (ax ++ execution_time_calls), [5.3; 8.4; 23.0]%Q, 5.3%Q, 23.0%Q, "#B580C5"%string.
  split; [apply create_execution_time_plot_run|].
  split; [vm_compute; reflexivity|].
  split; [reflexivity|].
  split; [reflexivity|].
  split; [reflexivity|].
  split; [vm_compute; reflexivity|].
  split; [rewrite texts_of_app; f_equal; vm_compute; reflexivity|].
  split; [vm_compute; reflexivity|].
  split; [qcmp|]. split; [qcmp|].
  split.
  - repeat constructor;
      (eexists; split; [vm_compute; reflexivity|]);
      intros m v Hv; unfold value in Hv;
      destruct (time_data !! m) as [vs|] eqn:Hm; try discriminate;
      rows Hm; simpl in Hv; injection Hv as <-; qcmp.
  - do 2 eexists. split; [vm_compute; reflexivity|].
    split; [vm_compute; reflexivity|qcmp].
Qed.


(** ** The export *)

(** Replace [eval o], for a closed [o] that does not raise, by its value. *)
Ltac eval_closed :=
  repeat match goal with
  | |- context [@eval ?S ?A ?o] =>
      let v := eval vm_compute in o in
      match v with
      | Some ?x => change (@eval S A o) with (@ret S A x)
      end
  end.

(** Unfold the program and the operations on the process state, leaving the
    maps and lists of an arbitrary initial state untouched. *)
Ltac run_world :=
  cbv beta iota zeta delta
    [main bind ret modify print setup_plot_style load_data for_
     savefig gcf set_current_fig plt_figure add_subplot on_axes suptitle
     tight_layout subplots_adjust
     stdout rc_style rc_params current_fig files writes dpi desc fst snd
     fig_size fig_axes fig_suptitle fig_tight_layout fig_adjust].

(** A run of [main] from any state: it returns, leaves [final_figure] as the
    current figure, and has written the files of [outputs] in order. *)
Lemma main_run w :
  ∃ out style rc,
    main w = Some (tt, World out style rc (Some final_figure)
                         (write_all final_figure outputs (files w))
                         (foldl (fun l x => l ++ [x]) (writes w) outputs.*1)).
Proof.
  destruct w as [o s r f d wr].
  do 3 eexists.
  repeat (progress (run_world; eval_closed)).
  match goal with
  | |- Some (_, World _ _ _ (Some ?F) _ _) = _ =>
      assert (F = final_figure) as -> by (vm_compute; reflexivity)
  end.
  reflexivity.
Qed.

Lemma write_all_lookup f d :
  Forall (fun out => write_all f outputs d !! out.1 = Some (Image out.2 f)) outputs.
Proof.
  unfold write_all, outputs. cbn [foldl fst snd].
  repeat constructor; cbn [fst snd];
    repeat (rewrite lookup_insert_ne by congruence);
    apply lookup_insert_eq.
Qed.

Lemma write_all_other f d name :
  name ∉ outputs.*1 → write_all f outputs d !! name = d !! name.
Proof.
  unfold write_all, outputs. cbn [foldl fst snd fmap list_fmap]. intros H.
  repeat (rewrite lookup_insert_ne;
          [|intros <-; apply H; repeat constructor]).
  reflexivity.
Qed.

Lemma write_all_dom f d :
  dom (write_all f outputs d) = dom d ∪ list_to_set outputs.*1.
Proof.
  unfold write_all, outputs. cbn [foldl fst snd fmap list_fmap list_to_set].
  rewrite !dom_insert_L. apply set_eq. intros x.
  rewrite !elem_of_union, !elem_of_singleton, elem_of_empty. tauto.
Qed.

(** C7: a complete run of [main], from any state of the working directory,
    writes exactly the four files sme_matmul_performance.png (raster, 300
    DPI), .pdf and .svg (vector, no resolution given) and
    sme_matmul_performance_hires.png (raster, 600 DPI), in this order; each
    holds the finished figure whatever was stored under its name before, and
    the directory gains no other name. *)
Theorem main_writes_four_files (w : world) :
  ∃ w',
    main w = Some (tt, w') ∧
    writes w' = writes w ++
      [ "sme_matmul_performance.png"; "sme_matmul_performance.pdf";
        "sme_matmul_performance.svg"; "sme_matmul_performance_hires.png" ] ∧
    files w' = write_all final_figure outputs (files w) ∧
    Forall (fun out => files w' !! out.1 = Some (Image out.2 final_figure)) outputs ∧
    dom (files w') = dom (files w) ∪ list_to_set outputs.*1 ∧
    outputs.*1 = [ "sme_matmul_performance.png"; "sme_matmul_performance.pdf";
                   "sme_matmul_performance.svg"; "sme_matmul_performance_hires.png" ] ∧
    outputs.*2 = [ Some 300%Z; None; None; Some 600%Z ] ∧
    kind_of <$> outputs.*1 = [ Some Raster; Some Vector; Some Vector; Some Raster ] ∧
    NoDup outputs.*1.
Proof.
  destruct (main_run w) as (out & style & rc & Hrun).
  eexists. split; [exact Hrun|]. cbn [writes files].
  split; [cbn [foldl fmap list_fmap outputs fst]; rewrite <- !app_assoc; reflexivity|].
  split; [reflexivity|].
  split; [apply write_all_lookup|].
  split; [apply write_all_dom|].
  split; [reflexivity|].
  split; [reflexivity|].
  split; [vm_compute; reflexivity|].
  compute_done.
Qed.

(** X17: a file of the working directory whose name is not one of the four
    output names is the same after a run of [main] as before it. *)
Lemma main_leaves_other_files w w' name :
  main w = Some (tt, w') → name ∉ outputs.*1 → files w' !! name = files w !! name.
Proof.
  destruct (main_run w) as (out & style & rc & Hrun). rewrite Hrun.
  intros [= <-] H. cbn [files]. by apply write_all_other.
Qed.

(** ** Consistency of the three tables *)

(** C2: for every non-baseline method and every matrix size, the speedup
    entry is the baseline (cpu) time divided by the method's time at that
    size, rounded to two decimals. *)
Theorem speedup_is_rounded_time_ratio (m : string) (i : nat) :
  m ∈ variants → (i < length matrix_sizes)%nat →
  ∃ s c t,
    value speedup_data m i = Some s ∧
    value time_data baseline i = Some c ∧
    value time_data m i = Some t ∧
    (0 < t)%Q ∧ (s == speedup_of c t)%Q ∧ rounds_to s (c / t)%Q.
Proof.
  change (length matrix_sizes) with 3%nat. intros Hm Hi.
  assert (i = 0 ∨ i = 1 ∨ i = 2)%nat as [-> | [-> | ->]] by lia;
    repeat (apply elem_of_cons in Hm as [-> | Hm]);
    try (by apply elem_of_nil in Hm);
    do 3 eexists;
    (split; [vm_compute; reflexivity|]);
    (split; [vm_compute; reflexivity|]);
    (split; [vm_compute; reflexivity|]);
    (split; [qcmp|]); (split; qcmp).
Qed.

Lemma speedup_is_rounded_time_ratio_witness :
  ∃ s c t,
    value speedup_data "sme_4tiles" 2 = Some s ∧
    value time_data baseline 2 = Some c ∧
    value time_data "sme_4tiles" 2 = Some t ∧
    (0 < t)%Q ∧ (s == speedup_of c t)%Q ∧ rounds_to s (c / t)%Q.
Proof.
  apply (speedup_is_rounded_time_ratio "sme_4tiles" 2).
  - repeat constructor.
  - vm_compute. lia.
Defined.

(** Settle [table_rel] between a table of [load_data] and a table computed
    from the time table, method by method. *)
Ltac table_rel_cases :=
  intros m; unfold table_of; rewrite lookup_fmap;
  destruct (time_data !! m) as [ts|] eqn:Ht;
  [ rows Ht;
    match goal with
    | |- option_Forall2 _ (?t !! ?k) _ =>
        let v := eval vm_compute in (t !! k) in change (t !! k) with v
    end;
    repeat constructor; qcmp
  | match goal with
    | |- option_Forall2 _ (?t !! m) _ =>
        destruct (t !! m) as [gs|] eqn:Hg;
        [ rows Hg; vm_compute in Ht; discriminate Ht | constructor ]
    end ].

(** C4: the labels of the three matrix sizes start with 64, 128 and 256, and
    for each of the four methods and each size n the time table holds a
    positive time t and the throughput table a value that is the GFLOPS of a
    2 n^3-operation multiply taking t microseconds, (2 n^3 / t) / 1000,
    rounded to two decimals; the throughput table has exactly the rows this
    computation gives from the time table. *)
Theorem throughput_is_rounded_flop_rate :
  Forall2 (fun label n => leading_int label = Some n) matrix_sizes dims ∧
  dims = [64; 128; 256]%Z ∧
  Forall (fun m =>
    Forall (fun i => ∃ label n t g,
              matrix_sizes !! i = Some label ∧ leading_int label = Some n ∧
              dims !! i = Some n ∧
              value time_data m i = Some t ∧ value gflops_data m i = Some g ∧
              (0 < t)%Q ∧ (g == gflops_of n t)%Q ∧ rounds_to g (flop_rate n t))
           [0; 1; 2]%nat)
    ["cpu"; "sme_cpu_prep"; "sme_sme_prep"; "sme_4tiles"] ∧
  dom gflops_data = dom time_data ∧
  table_rel Qeq gflops_data (table_of gflops_of dims time_data) ∧
  table_rel rounds_to gflops_data (table_of flop_rate dims time_data).
Proof.
  split; [repeat constructor|].
  split; [reflexivity|].
  split.
  { repeat constructor; do 4 eexists;
      (split; [vm_compute; reflexivity|]);
      (split; [vm_compute; reflexivity|]);
      (split; [vm_compute; reflexivity|]);
      (split; [vm_compute; reflexivity|]);
      (split; [vm_compute; reflexivity|]);
      (split; [qcmp|]); (split; qcmp). }
  split; [compute_done|].
  split; table_rel_cases.
Qed.


(** * Properties that hold for every input *)

(** ** Running a drawing routine forwards *)












Lemma arange_length n : length (Py.arange n) = n.
Proof. unfold Py.arange. by rewrite length_map, length_seq. Qed.


(** ** Running a drawing routine backwards *)

Lemma bind_Some {S A B} (m : Eff S A) (k : A → Eff S B) s r :
  bind m k s = Some r → ∃ a s', m s = Some (a, s') ∧ k a s' = Some r.
Proof. unfold bind. destruct (m s) as [[a s']|]; [eauto|done]. Qed.

Lemma eval_Some {S A} (o : option A) (s : S) a s' :
  eval o s = Some (a, s') → o = Some a ∧ s' = s.
Proof. destruct o; simpl; [|done]. by intros [= -> ->]. Qed.

Lemma call_Some c ax a ax' : call c ax = Some (a, ax') → a = tt ∧ ax' = ax ++ [c].
Proof. by intros [= <- <-]. Qed.

Lemma ret_Some {S A} (x : A) (s : S) a s' : ret x s = Some (a, s') → a = x ∧ s' = s.
Proof. by intros [= <- <-]. Qed.

Lemma ax_plot_Some x y marker color label ax a ax' :
  ax_plot x y marker color label ax = Some (a, ax') →
  length x = length y ∧ a = tt ∧ ax' = ax ++ [Plot (PlotCall x y marker color label)].
Proof.
  unfold ax_plot. destruct (length x =? length y)%nat eqn:E; [|discriminate].
  apply Nat.eqb_eq in E. by intros [= <- <-].
Qed.

Lemma ax_bar_Some x height width label color ax a ax' :
  ax_bar x height width label color ax = Some (a, ax') →
  bar_rectangles x height width = Some a ∧
  ax' = ax ++ [Bar (BarCall x height width label color)].
Proof.
  unfold ax_bar, bind. destruct (bar_rectangles x height width) as [bars|]; [|discriminate].
  by intros [= <- <-].
Qed.

Lemma for_Some {S A} (l : list A) (body : A → Eff S unit) s r :
  for_ l body s = Some r → ∀ a, a ∈ l → ∃ s1, is_Some (body a s1).
Proof.
  revert s. induction l as [|b l IH]; intros s H a Hin.
  - by apply elem_of_nil in Hin.
  - simpl in H. apply bind_Some in H as (u & s' & Hb & Hl).
    apply elem_of_cons in Hin as [-> | Hin]; [eauto|].
    eapply IH; eauto.
Qed.

Ltac run_inv H :=
  cbv beta iota zeta in H;
  lazymatch type of H with
  | bind _ _ _ = Some _ =>
      let H1 := fresh "Hstep" in
      apply bind_Some in H as (? & ? & H1 & H); run_inv H1; run_inv H
  | eval _ _ = Some _ =>
      apply eval_Some in H as [H ->]; unfold Py.getitem in H
  | call _ _ = Some _ => apply call_Some in H as [-> ->]
  | ret _ _ = Some _ => apply ret_Some in H as [-> ->]
  | ax_plot _ _ _ _ _ _ = Some _ =>
      let L := fresh "Hlen" in apply ax_plot_Some in H as (L & -> & ->)
  | ax_bar _ _ _ _ _ _ = Some _ =>
      let B := fresh "Hbars" in apply ax_bar_Some in H as [B ->]
  | for_ (_ :: _) _ _ = Some _ =>
      change (for_ (?a :: ?l) ?body) with (bind (body a) (fun _ => for_ l body)) in H;
      run_inv H
  | for_ [] _ _ = Some _ => apply ret_Some in H as [-> ->]
  | (if ?c then _ else _) _ = Some _ =>
      let v := eval vm_compute in c in
      change c with v in H; run_inv H
  | _ => idtac
  end.

(** ** Lists, positions and projections of a surface *)


























(** ** The calls of each chart routine on well-formed input *)

Section Speedup.
Variables (sizes : list string) (colors : gmap string string) (data : table).
Variables (c1 c2 c3 cb ct cg : string) (r1 r2 vals : list Q).
Hypothesis Hc1 : colors !! "sme_cpu_prep" = Some c1.
Hypothesis Hc2 : colors !! "sme_sme_prep" = Some c2.
Hypothesis Hc3 : colors !! "sme_4tiles" = Some c3.
Hypothesis Hcb : colors !! "baseline" = Some cb.
Hypothesis Hct : colors !! "text" = Some ct.
Hypothesis Hcg : colors !! "grid" = Some cg.
Hypothesis Hr1 : data !! "sme_cpu_prep" = Some r1.
Hypothesis Hr2 : data !! "sme_sme_prep" = Some r2.
Hypothesis Hr3 : data !! "sme_4tiles" = Some vals.
Hypothesis Hl1 : length r1 = length sizes.
Hypothesis Hl2 : length r2 = length sizes.
Hypothesis Hl3 : length vals = length sizes.


End Speedup.

Section Throughput.
Variables (sizes : list string) (colors : gmap string string) (data : table).
Variables (c0 c1 c2 c3 ct cg : string) (r0 r1 r2 vals : list Q).
Hypothesis Hc0 : colors !! "cpu" = Some c0.
Hypothesis Hc1 : colors !! "sme_cpu_prep" = Some c1.
Hypothesis Hc2 : colors !! "sme_sme_prep" = Some c2.
Hypothesis Hc3 : colors !! "sme_4tiles" = Some c3.
Hypothesis Hct : colors !! "text" = Some ct.
Hypothesis Hcg : colors !! "grid" = Some cg.
Hypothesis Hr0 : data !! "cpu" = Some r0.
Hypothesis Hr1 : data !! "sme_cpu_prep" = Some r1.
Hypothesis Hr2 : data !! "sme_sme_prep" = Some r2.
Hypothesis Hr3 : data !! "sme_4tiles" = Some vals.
Hypothesis Hl0 : length r0 = length sizes.
Hypothesis Hl1 : length r1 = length sizes.
Hypothesis Hl2 : length r2 = length sizes.
Hypothesis Hl3 : length vals = length sizes.


End Throughput.

Section ExecutionTime.
Variables (sizes : list string) (colors : gmap string string) (data : table).
Variables (c0 c1 c2 c3 ct cg : string) (r0 r1 r2 vals : list Q) (first final : Q).
Hypothesis Hc0 : colors !! "cpu" = Some c0.
Hypothesis Hc1 : colors !! "sme_cpu_prep" = Some c1.
Hypothesis Hc2 : colors !! "sme_sme_prep" = Some c2.
Hypothesis Hc3 : colors !! "sme_4tiles" = Some c3.
Hypothesis Hct : colors !! "text" = Some ct.
Hypothesis Hcg : colors !! "grid" = Some cg.
Hypothesis Hr0 : data !! "cpu" = Some r0.
Hypothesis Hr1 : data !! "sme_cpu_prep" = Some r1.
Hypothesis Hr2 : data !! "sme_sme_prep" = Some r2.
Hypothesis Hr3 : data !! "sme_4tiles" = Some vals.
Hypothesis Hl0 : length r0 = length sizes.
Hypothesis Hl1 : length r1 = length sizes.
Hypothesis Hl2 : length r2 = length sizes.
Hypothesis Hl3 : length vals = length sizes.
Hypothesis Hfirst : head vals = Some first.
Hypothesis Hfinal : last vals = Some final.
Hypothesis Hsizes : sizes ≠ [].


End ExecutionTime.

(** ** Keys *)

Ltac split_keys H :=
  unfold has_keys, rows_for, agree_on, speedup_palette_keys, method_palette_keys,
         methods, variants, baseline in H;
  repeat (let K := fresh "K" in apply Forall_cons in H as [K H]);
  clear H.

Ltac keys_present := repeat constructor; eauto.


(** Goals about the keys of closed dicts. *)
Ltac keys_of_closed :=
  repeat (apply List.Forall_cons;
          [vm_compute; first [reflexivity | eexists; first [reflexivity | split; reflexivity]]|]);
  apply List.Forall_nil.

Ltac unfold_chart :=
  cbv beta iota zeta delta
    [create_speedup_plot create_throughput_plot create_execution_time_plot
     bind eval ret call modify for_ ax_plot ax_bar bar_rectangles Py.getitem].

Ltac rewrite_keys :=
  repeat match goal with K : _ !! _ = _ !! _ |- _ => rewrite K; clear K end.

(** ** What the chart routines need *)

(** X2: [create_speedup_plot] returns only if the palette binds the six
    colours it indexes (the three SME variants, baseline, text, grid) and
    the table has, for each of the three SME variants, a row with exactly
    one value per matrix size: with a missing key or a row of another
    length the routine raises. *)
Theorem create_speedup_plot_requirements sizes colors data ax r :
  create_speedup_plot sizes colors data ax = Some r →
  has_keys speedup_palette_keys colors ∧ rows_for sizes variants data.
Proof.
  unfold create_speedup_plot. intros H. destruct r as [u ax']. run_inv H.
  rewrite arange_length in *.
  split; [keys_present|].
  repeat constructor; eexists; (split; [eassumption | congruence]).
Qed.

Lemma create_speedup_plot_requirements_witness :
  has_keys speedup_palette_keys palette ∧ rows_for matrix_sizes variants speedup_data.
Proof.
  exact (create_speedup_plot_requirements matrix_sizes palette speedup_data [] _
           (create_speedup_plot_run [])).
Defined.

Example create_speedup_plot_without_grid_colour :
  create_speedup_plot matrix_sizes (delete "grid" palette) speedup_data [] = None.
Proof. vm_compute. reflexivity. Qed.

Example create_speedup_plot_with_long_row :
  create_speedup_plot ["64×64×64"; "128×128×128"] palette speedup_data [] = None.
Proof. vm_compute. reflexivity. Qed.

Example create_speedup_plot_with_short_row :
  create_speedup_plot matrix_sizes palette (<["sme_cpu_prep" := [11.50; 50.10]%Q]> speedup_data) []
  = None.
Proof. vm_compute. reflexivity. Qed.



Example create_throughput_plot_without_cpu_row :
  create_throughput_plot matrix_sizes palette (delete "cpu" gflops_data) [] = None.
Proof. vm_compute. reflexivity. Qed.

Example create_throughput_plot_with_short_row :
  create_throughput_plot matrix_sizes palette (<["cpu" := [1.16; 1.40]%Q]> gflops_data) []
  = None.
Proof. vm_compute. reflexivity. Qed.

(** X4: [create_execution_time_plot] returns only if the palette binds the
    six colours it indexes, the table has a row for each of the four
    methods, there is at least one matrix size and the annotated row
    (sme_4tiles) is not empty: its first and last entries are indexed. *)
Theorem create_execution_time_plot_requirements sizes colors data ax r :
  create_execution_time_plot sizes colors data ax = Some r →
  has_keys method_palette_keys colors ∧ has_keys methods data ∧
  sizes ≠ [] ∧ ∃ vals, data !! "sme_4tiles" = Some vals ∧ vals ≠ [].
Proof.
  unfold create_execution_time_plot. intros H. destruct r as [u ax']. run_inv H.
  split; [keys_present|]. split; [keys_present|].
  split.
  - intros ->.
    match goal with Hx : Py.index (Py.arange _) 0 = Some _ |- _ => discriminate Hx end.
  - match goal with
    | Hv : Py.index ?vals 0 = Some _ |- _ =>
        exists vals; split; [assumption | intros ->; discriminate Hv]
    end.
Qed.

Lemma create_execution_time_plot_requirements_witness :
  has_keys method_palette_keys palette ∧ has_keys methods time_data ∧
  matrix_sizes ≠ [] ∧ ∃ vals, time_data !! "sme_4tiles" = Some vals ∧ vals ≠ [].
Proof.
  exact (create_execution_time_plot_requirements matrix_sizes palette time_data [] _
           (create_execution_time_plot_run [])).
Defined.

Example create_execution_time_plot_without_sizes :
  create_execution_time_plot [] palette time_data [] = None.
Proof. vm_compute. reflexivity. Qed.

Example create_execution_time_plot_with_empty_row :
  create_execution_time_plot matrix_sizes palette (<["sme_4tiles" := []]> time_data) [] = None.
Proof. vm_compute. reflexivity. Qed.

(** X18: [create_execution_time_plot] returns only if the table has, for
    each of the four methods, a row with exactly one value per matrix size:
    a row of another length makes the plot call raise. *)
Theorem create_execution_time_plot_row_lengths sizes colors data ax r :
  create_execution_time_plot sizes colors data ax = Some r →
  rows_for sizes methods data.
Proof.
  unfold create_execution_time_plot. intros H. destruct r as [u ax']. run_inv H.
  rewrite arange_length in *.
  repeat constructor; eexists; (split; [eassumption | congruence]).
Qed.

Lemma create_execution_time_plot_row_lengths_witness :
  rows_for matrix_sizes methods time_data.
Proof.
  exact (create_execution_time_plot_row_lengths matrix_sizes palette time_data [] _
           (create_execution_time_plot_run [])).
Defined.

Example create_execution_time_plot_with_short_row :
  create_execution_time_plot matrix_sizes palette (<["cpu" := [453.0]%Q]> time_data) [] = None.
Proof. vm_compute. reflexivity. Qed.

(** ** What the chart routines read *)

(** X5: the outcome of [create_speedup_plot] depends on the palette only
    through the six colours it indexes and on the table only through the
    rows of the three SME variants: the baseline (cpu) row and colour and
    any other entry are never read. *)
Theorem speedup_chart_reads_only_its_keys sizes colors colors' data data' ax :
  agree_on speedup_palette_keys colors colors' → agree_on variants data data' →
  create_speedup_plot sizes colors data ax = create_speedup_plot sizes colors' data' ax.
Proof.
  intros Hc Hd. split_keys Hc. split_keys Hd.
  unfold_chart. rewrite_keys. reflexivity.
Qed.

Lemma speedup_chart_reads_only_its_keys_witness :
  create_speedup_plot matrix_sizes palette speedup_data []
  = create_speedup_plot matrix_sizes (delete "cpu" palette) (delete "cpu" speedup_data) [].
Proof.
  apply (speedup_chart_reads_only_its_keys matrix_sizes palette (delete "cpu" palette)
           speedup_data (delete "cpu" speedup_data) []); keys_of_closed.
Defined.

(** X6: the outcome of [create_throughput_plot] depends on the palette only
    through the colours of the four methods, text and grid, and on the
    table only through the rows of the four methods. *)
Theorem throughput_chart_reads_only_its_keys sizes colors colors' data data' ax :
  agree_on method_palette_keys colors colors' → agree_on methods data data' →
  create_throughput_plot sizes colors data ax = create_throughput_plot sizes colors' data' ax.
Proof.
  intros Hc Hd. split_keys Hc. split_keys Hd.
  unfold_chart. rewrite_keys. reflexivity.
Qed.

Lemma throughput_chart_reads_only_its_keys_witness :
  create_throughput_plot matrix_sizes palette gflops_data []
  = create_throughput_plot matrix_sizes (delete "baseline" palette)
      (<["other" := [1%Q]]> gflops_data) [].
Proof.
  apply (throughput_chart_reads_only_its_keys matrix_sizes palette (delete "baseline" palette)
           gflops_data (<["other" := [1%Q]]> gflops_data) []); keys_of_closed.
Defined.

(** X7: the outcome of [create_execution_time_plot] depends on the palette
    only through the colours of the four methods, text and grid, and on the
    table only through the rows of the four methods. *)
Theorem execution_time_chart_reads_only_its_keys sizes colors colors' data data' ax :
  agree_on method_palette_keys colors colors' → agree_on methods data data' →
  create_execution_time_plot sizes colors data ax
  = create_execution_time_plot sizes colors' data' ax.
Proof.
  intros Hc Hd. split_keys Hc. split_keys Hd.
  unfold_chart. rewrite_keys. reflexivity.
Qed.

Lemma execution_time_chart_reads_only_its_keys_witness :
  create_execution_time_plot matrix_sizes palette time_data []
  = create_execution_time_plot matrix_sizes (<["baseline" := "#000000"]> palette)
      (<["other" := []]> time_data) [].
Proof.
  apply (execution_time_chart_reads_only_its_keys matrix_sizes palette
           (<["baseline" := "#000000"]> palette)
           time_data (<["other" := []]> time_data) []); keys_of_closed.
Defined.

(** ** The speedup chart *)





(** ** The throughput chart *)







(** ** The execution-time chart *)





(** ** The style and the whole program, from any process state *)

Lemma setup_plot_style_run w :
  setup_plot_style w
  = Some (palette, World (stdout w) (Some "seaborn-v0_8-whitegrid"%string)
                         (style_settings ∪ rc_params w)
                         (current_fig w) (files w) (writes w)).
Proof.
  destruct w as [o s r f d wr].
  unfold setup_plot_style.
  repeat (progress (run_world; eval_closed)).
  match goal with
  | |- Some (?P, World _ _ (?D ∪ _) _ _ _) = _ =>
      assert (palette = P) as <- by reflexivity;
      assert (style_settings = D) as <-
        by (transitivity (D ∪ (∅ : gmap string rc_value));
            [reflexivity | apply (right_id_L ∅ (∪))])
  end.
  reflexivity.
Qed.


(** Unfold the program but not [setup_plot_style]. *)
Ltac run_world_but_style :=
  cbv beta iota zeta delta
    [main bind ret modify print load_data for_
     savefig gcf set_current_fig plt_figure add_subplot on_axes suptitle
     tight_layout subplots_adjust
     stdout rc_style rc_params current_fig files writes dpi desc fst snd
     fig_size fig_axes fig_suptitle fig_tight_layout fig_adjust].

Lemma main_run_console w :
  main w = Some (tt, World (stdout w ++ console_report)
                       (Some "seaborn-v0_8-whitegrid"%string)
                       (style_settings ∪ rc_params w)
                       (Some final_figure)
                       (write_all final_figure outputs (files w))
                       (writes w ++ outputs.*1)).
Proof.
  destruct w as [o s r f d wr].
  run_world_but_style. rewrite setup_plot_style_run.
  repeat (progress (run_world; eval_closed)).
  match goal with
  | |- Some (_, World ?O _ _ (Some ?F) _ ?W) = _ =>
      assert (F = final_figure) as -> by (vm_compute; reflexivity);
      assert (O = o ++ console_report) as ->
        by (rewrite <- !app_assoc; reflexivity);
      assert (W = wr ++ outputs.*1) as ->
        by (rewrite <- !app_assoc; reflexivity)
  end.
  reflexivity.
Qed.


Lemma main_leaves_other_files_witness :
  ∃ w', main cluttered_world = Some (tt, w') ∧
        files w' !! "notes.txt" = files cluttered_world !! "notes.txt" ∧
        files w' !! "sme_matmul_performance.pdf" = Some (Image None final_figure).
Proof.
  pose proof (main_run_console cluttered_world) as Hrun.
  eexists. split; [exact Hrun|].
  split; [|vm_compute; reflexivity].
  apply (main_leaves_other_files cluttered_world _ "notes.txt" Hrun).
  compute_done.
Defined.
